(** * Beurer PO60 pulse oximeter: notification decoding

    A shallow embedding of [code.py]: the packet parser ([parse],
    [extract_time]), the notification callback ([handle_notification]) and
    the report of the latest measurement that closes [main].

    The module keeps its data in two module-level lists and writes to the
    [logging] module; both are threaded here as an explicit state.  Python
    exceptions are results of the computation, and the state survives them,
    as the module-level lists do. *)

From Stdlib Require Import ZArith Strings.Ascii Strings.Byte.
From stdpp Require Import base tactics option list numbers strings.

(** ** Data *)

(** The exceptions the modelled operations can raise. *)
Inductive PyExc : Set :=
| IndexError   (* a sequence index out of range *)
| KeyError     (* a dict key that is absent *)
| TypeError    (* an operator not supported between its operands *)
| ValueError.  (* [max] of an empty sequence *)

Global Instance PyExc_eq_dec : EqDecision PyExc.
Proof. solve_decision. Defined.

(** [{'max': _, 'min': _, 'avg': _}], the value under ['spo2'] and ['pr']. *)
Record Stats : Set := { max : Z; min : Z; avg : Z }.

(** The dict built by [extract_time]. *)
Record Time : Set :=
  { year : Z; month : Z; day : Z; hour : Z; minute : Z; second : Z }.

(** The dict built by [parse].  The key ['pr'] is absent until
    [handle_notification] stores it: [pr = None] is the absent key. *)
Record Measurement : Set :=
  { packet : Z; end_time : Time; spo2 : Stats; pr : option Stats }.

Definition with_pr (v : Stats) (m : Measurement) : Measurement :=
  {| packet := packet m; end_time := end_time m; spo2 := spo2 m; pr := Some v |}.

(** What the program hands to [logging]: a level and a message. *)
Inductive Level : Set := DEBUG | INFO | WARNING.

Inductive Message : Set :=
| Received (hex_data : string)       (* f"Received: {hex_data}" *)
| InvalidPacket                      (* "Invalid or incomplete data packet received." *)
| PulseRateUpdated (v : Stats)       (* f"Pulse Rate updated: {...}" *)
| PRIncomplete                       (* "PR values incomplete in notification." *)
| LatestMeasurement (n : Z) (s : Stats) (p : option Stats)
                                     (* f"Latest Measurement #{..} - SpO2: {..} - PR: {..}" *)
| NoMeasurements.                    (* "No measurements received." *)

Definition LogRecord : Set := Level * Message.

(** The module-level lists [measurements] and [raw_data], and the records
    handed to [logging], oldest first. *)
Record State : Set :=
  { measurements : list Measurement;
    raw_data : list string;
    log_records : list LogRecord }.

Definition initial : State :=
  {| measurements := []; raw_data := []; log_records := [] |}.

(** ** Computations: state and exceptions *)

Definition M (A : Type) : Type := State → (PyExc + A) * State.

Global Instance M_ret : MRet M := λ A a st, (inr a, st).

Global Instance M_bind : MBind M := λ A B f m st,
  match m st with
  | (inl e, st') => (inl e, st')
  | (inr a, st') => f a st'
  end.

Definition raise {A} (e : PyExc) : M A := λ st, (inl e, st).

(** [try: body except exc: handler] *)
Definition try_except {A} (body : M A) (exc : PyExc) (handler : M A) : M A :=
  λ st,
    match body st with
    | (inl e, st') => if decide (e = exc) then handler st' else (inl e, st')
    | r => r
    end.

Definition get_measurements : M (list Measurement) :=
  λ st, (inr (measurements st), st).

Definition put_measurements (ms : list Measurement) : M unit :=
  λ st, (inr (), {| measurements := ms; raw_data := raw_data st;
                    log_records := log_records st |}).

Definition raw_data_append (h : string) : M unit :=
  λ st, (inr (), {| measurements := measurements st;
                    raw_data := raw_data st ++ [h];
                    log_records := log_records st |}).

Definition logging (lvl : Level) (msg : Message) : M unit :=
  λ st, (inr (), {| measurements := measurements st;
                    raw_data := raw_data st;
                    log_records := log_records st ++ [(lvl, msg)] |}).

(** ** Byte sequences *)

Global Instance byte_eq_dec : EqDecision byte := Byte.byte_eq_dec.

Definition byte_val (b : byte) : Z := Z.of_N (Byte.to_N b).

(** [data[i]] for [i >= 0]: the byte as an integer, or [IndexError]. *)
Definition getitem (data : list byte) (i : nat) : M Z :=
  match data !! i with
  | Some b => mret (byte_val b)
  | None => raise IndexError
  end.

(** [data[lo:hi]] for [0 <= lo <= hi]; a slice never raises. *)
Definition slice (data : list byte) (lo hi : nat) : list byte :=
  take (hi - lo) (drop lo data).

(** [data.hex()]: two lower-case digits per byte. *)
Definition hex_digit (n : N) : ascii :=
  match String.get (N.to_nat n) "0123456789abcdef" with
  | Some c => c
  | None => "0"%char
  end.

Definition hex (data : list byte) : string :=
  foldr (λ b s, String (hex_digit (Byte.to_N b / 16))
                  (String (hex_digit (Byte.to_N b mod 16)) s))
        EmptyString data.

(** [data[i] & mask] *)
Definition masked (data : list byte) (i : nat) (mask : Z) : M Z :=
  b ← getitem data i; mret (Z.land b mask).

(** ** The parser *)

Definition MIN_PACKET_LENGTH : nat := 23.

Definition extract_time (data : list byte) : M Time :=
  y ← masked data 0 0x7F;
  mo ← masked data 1 0x0F;
  d ← masked data 2 0x1F;
  h ← masked data 3 0x1F;
  mi ← masked data 4 0x3F;
  s ← masked data 5 0x3F;
  mret {| year := 2000 + y; month := mo; day := d;
          hour := h; minute := mi; second := s |}.

(** The test [len(data) < MIN_PACKET_LENGTH or data[0] != 0xe9]: [or] does
    not evaluate [data[0]] when the length test already holds. *)
Definition invalid_packet (data : list byte) : M bool :=
  if bool_decide (length data < MIN_PACKET_LENGTH) then mret true
  else b0 ← getitem data 0; mret (negb (b0 =? 0xe9)%Z).

(** [parse]: [None] for an invalid packet, else the measurement dict.  The
    comprehension over [zip(['max', 'min', 'avg'], range(17, 20))] is
    written out key by key. *)
Definition parse (data : list byte) : M (option Measurement) :=
  bad ← invalid_packet data;
  if bad : bool then
    logging WARNING InvalidPacket;;
    mret None
  else
    p ← masked data 1 0x0F;
    t ← extract_time (slice data 8 14);
    smax ← masked data 17 0x7F;
    smin ← masked data 18 0x7F;
    savg ← masked data 19 0x7F;
    mret (Some {| packet := p; end_time := t;
                  spo2 := {| max := smax; min := smin; avg := savg |};
                  pr := None |}).

(** ** The notification callback *)

(** [measurements.append(m)] *)
Definition measurements_append (m : Measurement) : M unit :=
  ms ← get_measurements; put_measurements (ms ++ [m]).

(** [measurements[-1]['pr'] = v]: the last dict of the list is updated in
    place; on an empty list the subscript [-1] raises. *)
Definition set_last_pr (v : Stats) : M unit :=
  ms ← get_measurements;
  match length ms with
  | 0 => raise IndexError
  | S n => put_measurements (alter (with_pr v) n ms)
  end.

(** [measurements[-1]['pr']] *)
Definition get_last_pr : M Stats :=
  ms ← get_measurements;
  match last ms with
  | None => raise IndexError
  | Some m => match pr m with
              | Some v => mret v
              | None => raise KeyError
              end
  end.

(** The truth value of a list: non-empty. *)
Definition truthy {A} (l : list A) : bool :=
  match l with [] => false | _ => true end.

(** [handle_notification(sender, data)].  [sender] is not used by the body
    and is left out. *)
Definition handle_notification (data : list byte) : M unit :=
  let hex_data := hex data in
  logging DEBUG (Received hex_data);;
  raw_data_append hex_data;;
  b0 ← getitem data 0;
  if (b0 =? 0xe9)%Z then
    measurement ← parse data;
    match measurement with
    | Some m => measurements_append m
    | None => mret ()
    end
  else
    ms ← get_measurements;
    if truthy ms && bool_decide (3 ≤ length data) then
      try_except
        (vmax ← masked data 0 0x7F;
         vmin ← masked data 1 0x7F;
         vavg ← masked data 2 0x7F;
         set_last_pr {| max := vmax; min := vmin; avg := vavg |};;
         v ← get_last_pr;
         logging INFO (PulseRateUpdated v))
        IndexError
        (logging WARNING PRIncomplete)
    else mret ().

(** The transport calls the callback once per notification, in arrival
    order. *)
Fixpoint notifications (stream : list (list byte)) : M unit :=
  match stream with
  | [] => mret ()
  | data :: rest => handle_notification data;; notifications rest
  end.

(** ** The latest measurement *)

(** [a > b] for two values stored under ['end_time'].  They are dicts, and
    a dict implements [==] and [!=] only: [a > b] and the reflected
    [b < a] both answer [NotImplemented], so the operator raises
    [TypeError], whatever the two dicts hold. *)
Definition dict_gt (a b : Time) : PyExc + bool := inl TypeError.

(** [max(iterable, key=key)].  The first item starts as the maximum; the
    key of every later item is compared with the key of the current maximum
    by [>], and the item replaces it when the answer is true.  An exception
    of the comparison ends the call.  An empty iterable is a [ValueError]. *)
Section py_max.
Context {A K : Type} (key : A → K) (gt : K → K → PyExc + bool).

Fixpoint max_from (maxitem : A) (maxval : K) (rest : list A) : PyExc + A :=
  match rest with
  | [] => inr maxitem
  | item :: rest' =>
      let val := key item in
      match gt val maxval with
      | inl e => inl e
      | inr true => max_from item val rest'
      | inr false => max_from maxitem maxval rest'
      end
  end.

Definition py_max (l : list A) : PyExc + A :=
  match l with
  | [] => inl ValueError
  | item :: rest => max_from item (key item) rest
  end.

End py_max.

(** A pure result, or exception, as a computation. *)
Definition lift {A} (r : PyExc + A) : M A := λ st, (r, st).

(** The end of [main], after the notifications have been received:
    [if measurements: latest = max(measurements, key=lambda x: x['end_time'])]
    and the log line for it, [else] the log line for an empty list.
    [latest.get('pr', 'N/A')] is the optional [pr]. *)
Definition report_latest : M unit :=
  ms ← get_measurements;
  if truthy ms then
    latest ← lift (py_max end_time dict_gt ms);
    logging INFO (LatestMeasurement (packet latest) (spo2 latest) (pr latest))
  else
    logging INFO NoMeasurements.

(** * Descriptions used in the statements *)

(** The byte at an index that is known to be in range. *)
Definition byte_at (data : list byte) (i : nat) : Z :=
  from_option byte_val 0%Z (data !! i).

(** The fields that the extraction table of the decoder names: each one a
    masked byte of the buffer; [pr] is not set. *)
Definition extraction_table (data : list byte) : Measurement :=
  {| packet := Z.land (byte_at data 1) 0x0F;
     end_time :=
       {| year := 2000 + Z.land (byte_at data 8) 0x7F;
          month := Z.land (byte_at data 9) 0x0F;
          day := Z.land (byte_at data 10) 0x1F;
          hour := Z.land (byte_at data 11) 0x1F;
          minute := Z.land (byte_at data 12) 0x3F;
          second := Z.land (byte_at data 13) 0x3F |};
     spo2 :=
       {| max := Z.land (byte_at data 17) 0x7F;
          min := Z.land (byte_at data 18) 0x7F;
          avg := Z.land (byte_at data 19) 0x7F |};
     pr := None |}.

(** The state once the callback has logged and stored the raw buffer. *)
Definition received (data : list byte) (st : State) : State :=
  {| measurements := measurements st;
     raw_data := raw_data st ++ [hex data];
     log_records := log_records st ++ [(DEBUG, Received (hex data))] |}.

(** The pulse rate that the callback reads off a buffer. *)
Definition pulse_rate (data : list byte) : Stats :=
  {| max := Z.land (byte_at data 0) 0x7F;
     min := Z.land (byte_at data 1) 0x7F;
     avg := Z.land (byte_at data 2) 0x7F |}.

(** The five ways a call of the callback can go, as a relation between the
    buffer, the state before, and the result and state after. *)
Inductive handled (data : list byte) (st : State) : (PyExc + ()) * State → Prop :=
| handled_empty :
    data = [] →
    handled data st (inl IndexError, received data st)
| handled_measurement :
    23 ≤ length data → data !! 0 = Some xe9 →
    handled data st
      (inr (), {| measurements := measurements st ++ [extraction_table data];
                  raw_data := raw_data st ++ [hex data];
                  log_records := log_records st ++ [(DEBUG, Received (hex data))] |})
| handled_malformed :
    length data < 23 → data !! 0 = Some xe9 →
    handled data st
      (inr (), {| measurements := measurements st;
                  raw_data := raw_data st ++ [hex data];
                  log_records := (log_records st ++ [(DEBUG, Received (hex data))])
                                   ++ [(WARNING, InvalidPacket)] |})
| handled_pulse_rate b :
    data !! 0 = Some b → b ≠ xe9 →
    measurements st ≠ [] → 3 ≤ length data →
    handled data st
      (inr (), {| measurements :=
                    alter (with_pr (pulse_rate data))
                          (length (measurements st) - 1) (measurements st);
                  raw_data := raw_data st ++ [hex data];
                  log_records := (log_records st ++ [(DEBUG, Received (hex data))])
                                   ++ [(INFO, PulseRateUpdated (pulse_rate data))] |})
| handled_ignored b :
    data !! 0 = Some b → b ≠ xe9 →
    measurements st = [] ∨ length data < 3 →
    handled data st (inr (), received data st).

(** ** A measurement packet to run the program on

    23 bytes: the marker, packet number 1, the time 2025-03-10 12:30:45
    at offsets 8 to 13 and the SpO2 values 98, 90, 94 at offsets 17 to 19. *)
Definition sample_packet : list byte :=
  [xe9; x01; x00; x00; x00; x00; x00; x00;
   x19; x03; x0a; x0c; x1e; x2d;
   x00; x00; x00;
   x62; x5a; x5e;
   x00; x00; x00].

Definition sample_record : Measurement :=
  {| packet := 1;
     end_time := {| year := 2025; month := 3; day := 10;
                    hour := 12; minute := 30; second := 45 |};
     spo2 := {| max := 98; min := 90; avg := 94 |};
     pr := None |}.

(** The claim C4 as the specification states it: once a measurement holds
    a pulse rate, no buffer without the marker that is processed later
    changes that pulse rate.  The states are those the callback reaches
    from the empty lists. *)
Definition pulse_rate_written_once : Prop :=
  ∀ (stream : list (list byte)) (data : list byte) (i : nat)
    (m : Measurement) (v : Stats),
    measurements (notifications stream initial).2 !! i = Some m →
    pr m = Some v →
    data !! 0 ≠ Some xe9 →
    ∃ m', measurements
            (handle_notification data (notifications stream initial).2).2 !! i
            = Some m' ∧
          pr m' = Some v.

(** ** Packets, ranges and streams *)

(** A buffer that [parse] accepts: long enough, and starting with the
    marker. *)
Definition measurement_packet (data : list byte) : Prop :=
  23 ≤ length data ∧ data !! 0 = Some xe9.

Global Instance measurement_packet_dec (data : list byte) :
  Decision (measurement_packet data).
Proof. unfold measurement_packet. apply _. Defined.

(** The values that the masks of [parse], [extract_time] and the callback
    leave: seven bits for SpO2 and pulse rate, four for the packet number
    and the month, five for the day and the hour, six for the minute and
    the second, and 2000 plus seven bits for the year. *)
Definition stats_in_range (s : Stats) : Prop :=
  (0 ≤ max s ≤ 127 ∧ 0 ≤ min s ≤ 127 ∧ 0 ≤ avg s ≤ 127)%Z.

Definition time_in_range (t : Time) : Prop :=
  (2000 ≤ year t ≤ 2127 ∧ 0 ≤ month t ≤ 15 ∧ 0 ≤ day t ≤ 31 ∧
   0 ≤ hour t ≤ 31 ∧ 0 ≤ minute t ≤ 63 ∧ 0 ≤ second t ≤ 63)%Z.

Definition measurement_in_range (m : Measurement) : Prop :=
  (0 ≤ packet m ≤ 15)%Z ∧ time_in_range (end_time m) ∧
  stats_in_range (spo2 m) ∧ from_option stats_in_range True (pr m).

(** A measurement with the key ['pr'] taken away. *)
Definition without_pr (m : Measurement) : Measurement :=
  {| packet := packet m; end_time := end_time m; spo2 := spo2 m; pr := None |}.

(** The record that one call of the callback adds to the log after the
    [Received] line, if any. *)
Definition logged_after_received (data : list byte) (st : State) : list LogRecord :=
  match data !! 0 with
  | None => []
  | Some b =>
      if decide (b = xe9) then
        if decide (23 ≤ length data) then [] else [(WARNING, InvalidPacket)]
      else
        if truthy (measurements st) && bool_decide (3 ≤ length data)
        then [(INFO, PulseRateUpdated (pulse_rate data))]
        else []
  end.

(** * Properties *)

(** ** Running a computation step by step *)

Lemma bind_inr {A B} (m : M A) (f : A → M B) st a st' :
  m st = (inr a, st') → (m ≫= f) st = f a st'.
Proof. intros H. unfold mbind, M_bind. rewrite H. reflexivity. Qed.

Lemma bind_inl {A B} (m : M A) (f : A → M B) st e st' :
  m st = (inl e, st') → (m ≫= f) st = (inl e, st').
Proof. intros H. unfold mbind, M_bind. rewrite H. reflexivity. Qed.

(** [run_with tac] runs the first step of a sequence, [tac] proving what
    that step returns. *)
Ltac run_with tac := erewrite bind_inr by tac; cbn beta.

(** ** Reading bytes *)

Lemma byte_val_marker (b : byte) : (byte_val b =? 0xe9)%Z = bool_decide (b = xe9).
Proof. destruct b; vm_compute; reflexivity. Qed.

Lemma byte_val_range (b : byte) : (0 ≤ byte_val b < 256)%Z.
Proof. destruct b; vm_compute; split; congruence. Qed.

Lemma getitem_lt (data : list byte) i st :
  i < length data → getitem data i st = (inr (byte_at data i), st).
Proof.
  intros Hi. unfold getitem, byte_at.
  destruct (lookup_lt_is_Some_2 data i Hi) as [b ->]. reflexivity.
Qed.

Lemma getitem_ge (data : list byte) i st :
  length data ≤ i → getitem data i st = (inl IndexError, st).
Proof.
  intros Hi. unfold getitem. rewrite (lookup_ge_None_2 data i Hi). reflexivity.
Qed.

Lemma masked_lt (data : list byte) i mask st :
  i < length data → masked data i mask st = (inr (Z.land (byte_at data i) mask), st).
Proof.
  intros Hi. unfold masked. run_with ltac:(by apply getitem_lt). reflexivity.
Qed.

Lemma lookup_slice (data : list byte) lo hi i :
  i < hi - lo → slice data lo hi !! i = data !! (lo + i).
Proof.
  intros Hi. unfold slice. rewrite lookup_take_lt by done. apply lookup_drop.
Qed.

Lemma length_slice (data : list byte) lo hi :
  length (slice data lo hi) = Nat.min (hi - lo) (length data - lo).
Proof. unfold slice. rewrite length_take, length_drop. reflexivity. Qed.

Lemma byte_at_slice (data : list byte) lo hi i :
  i < hi - lo → byte_at (slice data lo hi) i = byte_at data (lo + i).
Proof. intros Hi. unfold byte_at. rewrite lookup_slice by done. reflexivity. Qed.

(** Runs a read [data[i] & mask] whose index is in range. *)
Ltac read_byte := run_with ltac:(apply masked_lt; rewrite ?length_slice; lia).

(** ** The parser *)

Lemma extract_time_run (data : list byte) st :
  6 ≤ length data →
  extract_time data st =
    (inr {| year := 2000 + Z.land (byte_at data 0) 0x7F;
            month := Z.land (byte_at data 1) 0x0F;
            day := Z.land (byte_at data 2) 0x1F;
            hour := Z.land (byte_at data 3) 0x1F;
            minute := Z.land (byte_at data 4) 0x3F;
            second := Z.land (byte_at data 5) 0x3F |}, st).
Proof.
  intros Hlen. unfold extract_time.
  do 6 read_byte. reflexivity.
Qed.

(** The packet test of [parse] answers without raising, and says
    [invalid] exactly when the buffer is short or does not start with the
    marker. *)
Lemma invalid_packet_run (data : list byte) st :
  invalid_packet data st =
    (inr (negb (bool_decide (23 ≤ length data) && bool_decide (data !! 0 = Some xe9))), st).
Proof.
  unfold invalid_packet, MIN_PACKET_LENGTH.
  case_bool_decide as Hlt.
  - rewrite bool_decide_eq_false_2 by lia. reflexivity.
  - rewrite bool_decide_eq_true_2 by lia.
    run_with ltac:(apply getitem_lt; lia).
    unfold mret, M_ret, byte_at.
    destruct data as [|b data]; [simpl in *; lia|]. simpl.
    rewrite byte_val_marker. repeat f_equal.
    apply bool_decide_ext. split; congruence.
Qed.

Lemma parse_valid (data : list byte) st :
  23 ≤ length data → data !! 0 = Some xe9 →
  parse data st = (inr (Some (extraction_table data)), st).
Proof.
  intros Hlen H0. unfold parse.
  run_with ltac:(apply invalid_packet_run).
  rewrite !bool_decide_eq_true_2 by done. cbn [negb andb].
  read_byte.
  run_with ltac:(apply extract_time_run; rewrite length_slice; lia).
  do 3 read_byte.
  rewrite !byte_at_slice by lia. reflexivity.
Qed.

Lemma parse_invalid (data : list byte) st :
  length data < 23 ∨ data !! 0 ≠ Some xe9 →
  parse data st =
    (inr None, {| measurements := measurements st; raw_data := raw_data st;
                  log_records := log_records st ++ [(WARNING, InvalidPacket)] |}).
Proof.
  intros Hbad. unfold parse.
  run_with ltac:(apply invalid_packet_run).
  replace (bool_decide (23 ≤ length data) && bool_decide (data !! 0 = Some xe9))
    with false; [reflexivity|].
  symmetry. apply andb_false_iff.
  destruct Hbad; [left; apply bool_decide_eq_false_2; lia
                 | right; by apply bool_decide_eq_false_2].
Qed.

(** ** The notification callback, case by case *)

Lemma truthy_ne {A} (l : list A) : l ≠ [] → truthy l = true.
Proof. by destruct l. Qed.

Lemma last_alter_last {A} (f : A → A) (l : list A) :
  last (alter f (length l - 1) l) = f <$> last l.
Proof.
  rewrite !last_lookup, length_alter.
  replace (pred (length l)) with (length l - 1) by lia.
  apply list_lookup_alter_eq.
Qed.

Lemma set_last_pr_run v st :
  measurements st ≠ [] →
  set_last_pr v st =
    (inr (), {| measurements :=
                  alter (with_pr v) (length (measurements st) - 1) (measurements st);
                raw_data := raw_data st; log_records := log_records st |}).
Proof.
  intros Hne. unfold set_last_pr.
  run_with ltac:(reflexivity).
  destruct (measurements st) as [|m ms]; [done|].
  cbn [length]. rewrite Nat.sub_1_r. reflexivity.
Qed.

Lemma get_last_pr_run m v st :
  last (measurements st) = Some m → pr m = Some v →
  get_last_pr st = (inr v, st).
Proof.
  intros Hlast Hpr. unfold get_last_pr.
  run_with ltac:(reflexivity). rewrite Hlast, Hpr. reflexivity.
Qed.

(** The empty buffer: [data[0]] raises before either branch is entered. *)
Lemma handle_notification_empty st :
  handle_notification [] st = (inl IndexError, received [] st).
Proof. reflexivity. Qed.

(** A buffer that starts with the marker and is long enough. *)
Lemma handle_notification_measurement (data : list byte) st :
  23 ≤ length data → data !! 0 = Some xe9 →
  handle_notification data st =
    (inr (), {| measurements := measurements st ++ [extraction_table data];
                raw_data := raw_data st ++ [hex data];
                log_records := log_records st ++ [(DEBUG, Received (hex data))] |}).
Proof.
  intros Hlen H0. unfold handle_notification. cbn zeta.
  do 2 run_with ltac:(reflexivity).
  run_with ltac:(apply getitem_lt; lia).
  unfold byte_at. rewrite H0. cbn [from_option].
  rewrite byte_val_marker, bool_decide_eq_true_2 by done.
  run_with ltac:(by apply parse_valid).
  reflexivity.
Qed.

(** A buffer that starts with the marker and is too short. *)
Lemma handle_notification_malformed (data : list byte) st :
  length data < 23 → data !! 0 = Some xe9 →
  handle_notification data st =
    (inr (), {| measurements := measurements st;
                raw_data := raw_data st ++ [hex data];
                log_records := (log_records st ++ [(DEBUG, Received (hex data))])
                                 ++ [(WARNING, InvalidPacket)] |}).
Proof.
  intros Hlen H0. unfold handle_notification. cbn zeta.
  do 2 run_with ltac:(reflexivity).
  run_with ltac:(apply getitem_lt; by apply lookup_lt_Some in H0).
  unfold byte_at. rewrite H0. cbn [from_option].
  rewrite byte_val_marker, bool_decide_eq_true_2 by done.
  run_with ltac:(apply parse_invalid; by left).
  reflexivity.
Qed.

(** A buffer of three bytes or more that does not start with the marker,
    while the list of measurements is not empty. *)
Lemma handle_notification_pulse_rate (data : list byte) b st :
  data !! 0 = Some b → b ≠ xe9 →
  measurements st ≠ [] → 3 ≤ length data →
  handle_notification data st =
    (inr (), {| measurements :=
                  alter (with_pr (pulse_rate data))
                        (length (measurements st) - 1) (measurements st);
                raw_data := raw_data st ++ [hex data];
                log_records := (log_records st ++ [(DEBUG, Received (hex data))])
                                 ++ [(INFO, PulseRateUpdated (pulse_rate data))] |}).
Proof.
  intros H0 Hb Hne Hlen. unfold handle_notification. cbn zeta.
  do 2 run_with ltac:(reflexivity). cbn [measurements raw_data log_records].
  run_with ltac:(apply getitem_lt; lia).
  unfold byte_at at 1. rewrite H0. cbn [from_option].
  rewrite byte_val_marker, bool_decide_eq_false_2 by done.
  run_with ltac:(reflexivity). cbn [measurements].
  rewrite bool_decide_eq_true_2, truthy_ne by done. cbn [andb].
  unfold try_except.
  do 3 read_byte.
  run_with ltac:(by apply set_last_pr_run).
  cbn [measurements raw_data log_records].
  destruct (last (measurements st)) as [ml|] eqn:Hlast;
    [|by apply last_None in Hlast].
  run_with ltac:(eapply get_last_pr_run;
                 [cbn [measurements]; rewrite last_alter_last, Hlast; reflexivity
                 |reflexivity]).
  reflexivity.
Qed.

(** A buffer that does not start with the marker, and is shorter than
    three bytes or meets an empty list of measurements. *)
Lemma handle_notification_ignored (data : list byte) b st :
  data !! 0 = Some b → b ≠ xe9 →
  measurements st = [] ∨ length data < 3 →
  handle_notification data st = (inr (), received data st).
Proof.
  intros H0 Hb Hskip. unfold handle_notification. cbn zeta.
  do 2 run_with ltac:(reflexivity).
  run_with ltac:(apply getitem_lt; by apply lookup_lt_Some in H0).
  unfold byte_at. rewrite H0. cbn [from_option].
  rewrite byte_val_marker, bool_decide_eq_false_2 by done.
  run_with ltac:(reflexivity). cbn [measurements].
  assert (truthy (measurements st) && bool_decide (3 ≤ length data) = false) as ->.
  { destruct Hskip as [-> | Hlen]; [reflexivity|].
    rewrite (bool_decide_eq_false_2 (3 ≤ length data)) by lia.
    apply andb_false_r. }
  reflexivity.
Qed.

Lemma handle_notification_handled (data : list byte) st :
  handled data st (handle_notification data st).
Proof.
  destruct data as [|b data'] eqn:Hdata.
  { rewrite handle_notification_empty. by constructor. }
  rewrite <- Hdata. assert (data !! 0 = Some b) as H0 by (by subst).
  clear Hdata. destruct (decide (b = xe9)) as [->|Hb].
  - destruct (decide (23 ≤ length data)) as [Hlen|Hlen].
    + rewrite handle_notification_measurement by done. by constructor.
    + rewrite handle_notification_malformed by (done || lia).
      constructor; [lia|done].
  - assert (measurements st = [] ∨ measurements st ≠ []) as [Hms|Hms]
      by (destruct (measurements st); [by left | by right]).
    { erewrite handle_notification_ignored by eauto. econstructor; eauto. }
    destruct (decide (3 ≤ length data)) as [Hlen|Hlen].
    + erewrite handle_notification_pulse_rate by eauto.
      econstructor; eauto.
    + erewrite handle_notification_ignored by (eauto; right; lia).
      econstructor; eauto. right; lia.
Qed.

(** How the list of measurements changes in one call. *)
Lemma measurements_after (data : list byte) st :
  measurements (handle_notification data st).2 =
    match data !! 0 with
    | None => measurements st
    | Some b =>
        if decide (b = xe9) then
          if decide (23 ≤ length data)
          then measurements st ++ [extraction_table data]
          else measurements st
        else
          if truthy (measurements st) && bool_decide (3 ≤ length data)
          then alter (with_pr (pulse_rate data))
                     (length (measurements st) - 1) (measurements st)
          else measurements st
    end.
Proof.
  destruct (handle_notification_handled data st)
    as [-> | Hlen H0 | Hlen H0 | b H0 Hb Hne Hlen | b H0 Hb Hskip]; cbn [snd measurements received].
  - reflexivity.
  - rewrite H0. by rewrite !decide_True.
  - rewrite H0. rewrite decide_True, decide_False by (done || lia). done.
  - rewrite H0, decide_False by done.
    by rewrite truthy_ne, bool_decide_eq_true_2.
  - rewrite H0, decide_False by done.
    destruct Hskip as [-> | Hlen]; [done|].
    by rewrite (bool_decide_eq_false_2 (3 ≤ length data)), andb_false_r by lia.
Qed.

(** * The claims *)

(** ** The parser *)

(** C3.  [parse] accepts a buffer (returns a measurement rather than
    [None]) if and only if the buffer holds at least 23 bytes and its
    first byte is the marker [0xE9].  A buffer that is shorter, or that
    starts with another byte, is rejected, and the callback, called on it
    in any state, leaves the number of measurements as it was. *)
Theorem validator_accepts_iff (data : list byte) (st : State) :
  ((∃ m, (parse data st).1 = inr (Some m))
     ↔ 23 ≤ length data ∧ data !! 0 = Some xe9) ∧
  (length data < 23 ∨ data !! 0 ≠ Some xe9 →
     (parse data st).1 = inr None ∧
     length (measurements (handle_notification data st).2)
       = length (measurements st)).
Proof.
  assert (length data < 23 ∨ data !! 0 ≠ Some xe9 →
          (parse data st).1 = inr None) as Hrej.
  { intros Hbad. by rewrite parse_invalid. }
  split; [split|].
  - intros [m Hm].
    destruct (decide (23 ≤ length data)) as [Hlen|Hlen];
      [|rewrite Hrej in Hm by (left; lia); done].
    destruct (decide (data !! 0 = Some xe9)) as [H0|H0];
      [done|rewrite Hrej in Hm by (by right); done].
  - intros [Hlen H0]. exists (extraction_table data). by rewrite parse_valid.
  - intros Hbad. split; [by apply Hrej|].
    rewrite measurements_after.
    destruct (data !! 0) as [b|] eqn:H0; [|done].
    destruct (decide (b = xe9)) as [->|Hb].
    + rewrite decide_False; [done|]. destruct Hbad; [lia|done].
    + destruct (truthy (measurements st) && bool_decide (3 ≤ length data));
        [apply length_alter|done].
Qed.

Lemma validator_accepts_iff_witness :
  (parse [xe9; x01; x02] initial).1 = inr None ∧
  length (measurements (handle_notification [xe9; x01; x02] initial).2)
    = length (measurements initial).
Proof.
  apply (proj2 (validator_accepts_iff [xe9; x01; x02] initial)).
  left. simpl. lia.
Defined.

(** C6.  On a valid buffer whose byte 1 is [0x01], whose bytes 8 to 13 are
    [19 03 0A 0C 1E 2D] and whose bytes 17 to 19 are [62 5A 5E], [parse]
    returns packet number 1, the time 2025-03-10 12:30:45 and the SpO2
    values max 98, min 90, avg 94, with no pulse rate; every field is the
    masked byte of the extraction table. *)
Theorem parse_synthetic_buffer (data : list byte) (st : State) :
  23 ≤ length data → data !! 0 = Some xe9 →
  data !! 1 = Some x01 →
  slice data 8 14 = [x19; x03; x0a; x0c; x1e; x2d] →
  slice data 17 20 = [x62; x5a; x5e] →
  parse data st = (inr (Some (extraction_table data)), st) ∧
  extraction_table data =
    {| packet := 1;
       end_time := {| year := 2025; month := 3; day := 10;
                      hour := 12; minute := 30; second := 45 |};
       spo2 := {| max := 98; min := 90; avg := 94 |};
       pr := None |}.
Proof.
  intros Hlen H0 H1 Htime Hspo2. split; [by apply parse_valid|].
  assert (∀ i, i < 6 → data !! (8 + i) = [x19; x03; x0a; x0c; x1e; x2d] !! i)
    as Ht by (intros i Hi; rewrite <- Htime; symmetry; apply lookup_slice; lia).
  assert (∀ i, i < 3 → data !! (17 + i) = [x62; x5a; x5e] !! i)
    as Hs by (intros i Hi; rewrite <- Hspo2; symmetry; apply lookup_slice; lia).
  pose proof (Ht 0 ltac:(lia)) as T0. pose proof (Ht 1 ltac:(lia)) as T1.
  pose proof (Ht 2 ltac:(lia)) as T2. pose proof (Ht 3 ltac:(lia)) as T3.
  pose proof (Ht 4 ltac:(lia)) as T4. pose proof (Ht 5 ltac:(lia)) as T5.
  pose proof (Hs 0 ltac:(lia)) as S0. pose proof (Hs 1 ltac:(lia)) as S1.
  pose proof (Hs 2 ltac:(lia)) as S2.
  cbn in T0, T1, T2, T3, T4, T5, S0, S1, S2.
  unfold extraction_table, byte_at.
  rewrite H1, T0, T1, T2, T3, T4, T5, S0, S1, S2. reflexivity.
Qed.

Lemma parse_synthetic_buffer_witness :
  parse sample_packet initial
    = (inr (Some (extraction_table sample_packet)), initial) ∧
  extraction_table sample_packet = sample_record.
Proof.
  apply (parse_synthetic_buffer sample_packet initial);
    [simpl; lia | reflexivity | reflexivity | reflexivity | reflexivity].
Defined.

(** ** Streams of notifications *)

(** C7.  A valid measurement packet followed by the buffer [50 40 46],
    received with no measurement stored yet, leaves exactly one
    measurement, and its pulse rate is max 80, min 64, avg 70. *)
Theorem measurement_then_pulse_rate (data : list byte) :
  23 ≤ length data → data !! 0 = Some xe9 →
  notifications [data; [x50; x40; x46]] initial =
    (inr (),
     {| measurements :=
          [with_pr {| max := 80; min := 64; avg := 70 |} (extraction_table data)];
        raw_data := [hex data; "504046"];
        log_records :=
          [(DEBUG, Received (hex data)); (DEBUG, Received "504046");
           (INFO, PulseRateUpdated {| max := 80; min := 64; avg := 70 |})] |}).
Proof.
  intros Hlen H0. cbn [notifications].
  run_with ltac:(by apply handle_notification_measurement).
  run_with ltac:(by apply (handle_notification_pulse_rate _ x50)).
  reflexivity.
Qed.

Lemma measurement_then_pulse_rate_witness :
  measurements (notifications [sample_packet; [x50; x40; x46]] initial).2 =
    [with_pr {| max := 80; min := 64; avg := 70 |} sample_record].
Proof.
  rewrite (measurement_then_pulse_rate sample_packet);
    [reflexivity | simpl; lia | reflexivity].
Defined.

(** C8.  Two valid measurement packets in a row, with no buffer between
    them, leave two measurements, and the first has no pulse rate: the
    second packet is stored as a new measurement, with no exception and no
    warning. *)
Theorem two_measurements_in_a_row (data1 data2 : list byte) :
  23 ≤ length data1 → data1 !! 0 = Some xe9 →
  23 ≤ length data2 → data2 !! 0 = Some xe9 →
  notifications [data1; data2] initial =
    (inr (),
     {| measurements := [extraction_table data1; extraction_table data2];
        raw_data := [hex data1; hex data2];
        log_records :=
          [(DEBUG, Received (hex data1)); (DEBUG, Received (hex data2))] |}) ∧
  pr (extraction_table data1) = None.
Proof.
  intros Hlen1 H1 Hlen2 H2. split; [|reflexivity]. cbn [notifications].
  do 2 run_with ltac:(by apply handle_notification_measurement).
  reflexivity.
Qed.

Lemma two_measurements_in_a_row_witness :
  measurements (notifications [sample_packet; sample_packet] initial).2 =
    [sample_record; sample_record].
Proof.
  rewrite (proj1 (two_measurements_in_a_row sample_packet sample_packet
                    ltac:(simpl; lia) eq_refl ltac:(simpl; lia) eq_refl)).
  reflexivity.
Defined.

(** ** The callback on any buffer *)

(** C1.  The callback returns normally on every buffer that holds at least
    one byte, whatever the bytes and whatever the state, but not on the
    empty buffer: there [data[0]] raises [IndexError], outside the [try]
    block, after the raw buffer has been logged and stored. *)
Theorem handle_notification_result (data : list byte) (st : State) :
  (handle_notification data st).1 =
    match data with
    | [] => inl IndexError
    | _ :: _ => inr ()
    end ∧
  handle_notification [] st = (inl IndexError, received [] st).
Proof.
  split; [|reflexivity].
  destruct (handle_notification_handled data st)
    as [Hnil | Hlen H0 | Hlen H0 | b H0 Hb Hne Hlen | b H0 Hb Hskip];
    cbn [fst]; by destruct data.
Qed.

(** C10.  One call of the callback removes no measurement and adds at most
    one, at the end.  Every measurement stored before the call is still at
    its index after it, with the same packet number, time and SpO2 values;
    and unless it is the last one of the list before the call, it is the
    same in every field. *)
Theorem handle_notification_frame (data : list byte) (st : State) :
  length (measurements st) ≤ length (measurements (handle_notification data st).2)
    ≤ length (measurements st) + 1 ∧
  ∀ i m, measurements st !! i = Some m →
    ∃ m', measurements (handle_notification data st).2 !! i = Some m' ∧
          packet m' = packet m ∧ end_time m' = end_time m ∧ spo2 m' = spo2 m ∧
          (i + 1 < length (measurements st) → m' = m).
Proof.
  destruct (handle_notification_handled data st)
    as [-> | Hlen H0 | Hlen H0 | b H0 Hb Hne Hlen | b H0 Hb Hskip];
    cbn [snd measurements received].
  - split; [lia|]. intros i m Hi. by exists m.
  - rewrite length_app. cbn [length]. split; [lia|].
    intros i m Hi. exists m. by rewrite (lookup_app_l_Some _ _ _ _ Hi).
  - split; [lia|]. intros i m Hi. by exists m.
  - rewrite length_alter. split; [lia|].
    intros i m Hi. rewrite list_lookup_alter.
    case_decide as Hlast.
    + subst i. rewrite Hi. eexists. split; [reflexivity|].
      repeat split. intros Hlt. lia.
    + by exists m.
  - split; [lia|]. intros i m Hi. by exists m.
Qed.

Lemma handle_notification_frame_witness :
  ∃ m', measurements
          (handle_notification [x50; x40; x46]
             {| measurements := [sample_record; sample_record];
                raw_data := []; log_records := [] |}).2 !! 0 = Some m' ∧
        packet m' = packet sample_record ∧
        end_time m' = end_time sample_record ∧
        spo2 m' = spo2 sample_record ∧
        (0 + 1 < 2 → m' = sample_record).
Proof.
  apply (proj2 (handle_notification_frame [x50; x40; x46]
                  {| measurements := [sample_record; sample_record];
                     raw_data := []; log_records := [] |}) 0 sample_record).
  reflexivity.
Defined.

(** ** The pulse rate of a measurement *)

(** C4, counterexample.  After the sample packet and the buffer
    [50 40 46] the measurement holds the pulse rate 80, 64, 70; the buffer
    [01 02 03] then replaces it by 1, 2, 3. *)
Lemma pulse_rate_overwritten : ¬ pulse_rate_written_once.
Proof.
  intros Hclaim.
  destruct (Hclaim [sample_packet; [x50; x40; x46]] [x01; x02; x03] 0
              (with_pr {| max := 80; min := 64; avg := 70 |} sample_record)
              {| max := 80; min := 64; avg := 70 |})
    as (m' & Hm' & Hpr); [reflexivity | reflexivity | done |].
  vm_compute in Hm'. injection Hm' as <-. cbn in Hpr. discriminate Hpr.
Qed.

(** A measurement that is not the last of the list is still there, and
    still not the last, after one call. *)
Lemma handle_notification_keeps_older (data : list byte) st i m :
  measurements st !! i = Some m → i + 1 < length (measurements st) →
  measurements (handle_notification data st).2 !! i = Some m ∧
  i + 1 < length (measurements (handle_notification data st).2).
Proof.
  intros Hi Hlt.
  destruct (handle_notification_handled data st)
    as [-> | Hlen H0 | Hlen H0 | b H0 Hb Hne Hlen | b H0 Hb Hskip];
    cbn [snd measurements received]; try done.
  - rewrite length_app. split; [by apply lookup_app_l_Some|lia].
  - rewrite length_alter, list_lookup_alter_ne by lia. done.
Qed.

(** The same over any stream of notifications, by induction on the
    stream. *)
Lemma notifications_keep_older (stream : list (list byte)) :
  ∀ st i m,
    measurements st !! i = Some m → i + 1 < length (measurements st) →
    measurements (notifications stream st).2 !! i = Some m.
Proof.
  induction stream as [|data stream IH]; intros st i m Hi Hlt; [done|].
  cbn [notifications].
  destruct (handle_notification_keeps_older data st i m Hi Hlt) as [Hi' Hlt'].
  unfold mbind, M_bind.
  destruct (handle_notification data st) as [[e|[]] st'] eqn:Hrun;
    cbn [snd] in *; [done|].
  by apply IH.
Qed.

(** C4, as the program has it.  A call of the callback sets the pulse rate
    of the last measurement of the list to the three masked bytes of the
    buffer whenever the buffer does not start with the marker and holds at
    least three bytes, whether or not that measurement already had a pulse
    rate; in every other case, and for every measurement that is not the
    last of the list, the pulse rate stays as it was.  A measurement that
    is no longer the last of the list is never changed again, over any
    stream of notifications. *)
Theorem pulse_rate_follows_last_buffer (data : list byte) (st : State)
    (i : nat) (m : Measurement) :
  measurements st !! i = Some m →
  (∃ m', measurements (handle_notification data st).2 !! i = Some m' ∧
         pr m' =
           if bool_decide (i + 1 = length (measurements st) ∧
                           3 ≤ length data ∧ data !! 0 ≠ Some xe9)
           then Some (pulse_rate data)
           else pr m) ∧
  (i + 1 < length (measurements st) →
   ∀ stream, measurements (notifications stream st).2 !! i = Some m).
Proof.
  intros Hi. split; [|intros Hlt stream; by apply notifications_keep_older].
  pose proof (lookup_lt_Some _ _ _ Hi) as Hlt.
  destruct (handle_notification_handled data st)
    as [-> | Hlen H0 | Hlen H0 | b H0 Hb Hne Hlen | b H0 Hb Hskip];
    cbn [snd measurements received].
  - exists m. split; [done|]. rewrite bool_decide_eq_false_2; [done|].
    cbn [length]. lia.
  - exists m. split; [by apply lookup_app_l_Some|].
    rewrite bool_decide_eq_false_2; [done|]. intros (_ & _ & Hne). done.
  - exists m. split; [done|]. rewrite bool_decide_eq_false_2; [done|].
    intros (_ & _ & Hne). done.
  - rewrite list_lookup_alter. case_decide as Hlast.
    + subst i. rewrite Hi. eexists. split; [reflexivity|].
      rewrite bool_decide_eq_true_2; [done|].
      split; [lia|]. split; [done|]. congruence.
    + exists m. split; [done|]. rewrite bool_decide_eq_false_2; [done|]. lia.
  - exists m. split; [done|]. rewrite bool_decide_eq_false_2; [done|].
    intros (Hlast & Hlen & _). destruct Hskip as [Hnil|Hshort]; [|lia].
    rewrite Hnil in Hlt. cbn in Hlt. lia.
Qed.

Lemma pulse_rate_follows_last_buffer_witness :
  ∃ m', measurements
          (handle_notification [x01; x02; x03]
             {| measurements :=
                  [with_pr {| max := 80; min := 64; avg := 70 |} sample_record];
                raw_data := []; log_records := [] |}).2 !! 0 = Some m' ∧
        pr m' = Some {| max := 1; min := 2; avg := 3 |}.
Proof.
  apply (proj1 (pulse_rate_follows_last_buffer [x01; x02; x03]
                  {| measurements :=
                       [with_pr {| max := 80; min := 64; avg := 70 |} sample_record];
                     raw_data := []; log_records := [] |}
                  0 _ eq_refl)).
Defined.

(** ** Short buffers after a measurement *)

(** C5.  After the sample packet, the two-byte buffer [50 40] leaves the
    measurement without a pulse rate, and a later buffer of three bytes is
    still stored as its pulse rate.  No warning is logged for the short
    buffer: the only records are the two [Received] lines.  The warning
    for incomplete pulse-rate values is never logged by the callback, on
    any buffer and in any state, because the branch that holds it is
    entered with three bytes or more only. *)
Theorem short_buffer_logs_no_warning :
  notifications [sample_packet; [x50; x40]] initial =
    (inr (),
     {| measurements := [sample_record];
        raw_data := [hex sample_packet; "5040"];
        log_records :=
          [(DEBUG, Received (hex sample_packet)); (DEBUG, Received "5040")] |}) ∧
  measurements
    (notifications [sample_packet; [x50; x40]; [x50; x40; x46]] initial).2 =
    [with_pr {| max := 80; min := 64; avg := 70 |} sample_record] ∧
  ∀ (data : list byte) (st : State),
    ∃ new, log_records (handle_notification data st).2 = log_records st ++ new ∧
           (WARNING, PRIncomplete) ∉ new.
Proof.
  split; [reflexivity|]. split; [reflexivity|].
  intros data st.
  destruct (handle_notification_handled data st)
    as [-> | Hlen H0 | Hlen H0 | b H0 Hb Hne Hlen | b H0 Hb Hskip];
    cbn [snd log_records received]; rewrite <- ?app_assoc;
    eexists; (split; [reflexivity|]);
    intros Hin;
    repeat (apply elem_of_cons in Hin as [Hin|Hin]; [discriminate Hin|]);
    by apply elem_of_nil in Hin.
Qed.

(** ** The latest measurement *)

(** C9.  With no measurement stored, the report logs
    ["No measurements received."] and returns normally; [max] is not
    called. *)
Theorem report_latest_no_measurements (rd : list string) (lg : list LogRecord) :
  report_latest {| measurements := []; raw_data := rd; log_records := lg |} =
    (inr (), {| measurements := []; raw_data := rd;
                log_records := lg ++ [(INFO, NoMeasurements)] |}).
Proof. reflexivity. Qed.

(** C2.  With one measurement stored, the report logs that measurement.
    With two or more, [max] compares the ['end_time'] dicts of the first
    two with [>], and the report ends in [TypeError] with nothing logged,
    whatever the times are and in whatever order they were stored. *)
Theorem report_latest_compares_dicts
    (m1 m2 : Measurement) (rest : list Measurement)
    (rd : list string) (lg : list LogRecord) :
  report_latest {| measurements := [m1]; raw_data := rd; log_records := lg |} =
    (inr (), {| measurements := [m1]; raw_data := rd;
                log_records :=
                  lg ++ [(INFO, LatestMeasurement (packet m1) (spo2 m1) (pr m1))] |}) ∧
  report_latest {| measurements := m1 :: m2 :: rest; raw_data := rd;
                   log_records := lg |} =
    (inl TypeError, {| measurements := m1 :: m2 :: rest; raw_data := rd;
                       log_records := lg |}).
Proof. split; reflexivity. Qed.

(** * Further properties of the program *)

(** ** Helper facts *)

Lemma byte_at_N (data : list byte) i : ∃ n : N, byte_at data i = Z.of_N n.
Proof.
  unfold byte_at. destruct (data !! i) as [b|]; cbn [from_option].
  - by exists (Byte.to_N b).
  - by exists 0%N.
Qed.

(** A masked byte lies between 0 and the mask. *)
Lemma land_byte_at_range (data : list byte) i (mask : N) :
  (0 ≤ Z.land (byte_at data i) (Z.of_N mask) ≤ Z.of_N mask)%Z.
Proof.
  destruct (byte_at_N data i) as [n ->].
  rewrite <- N2Z.inj_land. split; [apply N2Z.is_nonneg|].
  apply N2Z.inj_le, N.land_le_r.
Qed.


Lemma extraction_table_in_range (data : list byte) :
  measurement_in_range (extraction_table data).
Proof.
  unfold measurement_in_range, time_in_range, stats_in_range, extraction_table.
  cbn [packet end_time spo2 pr year month day hour minute second max min avg
       from_option].
  pose proof (land_byte_at_range data 1 15).
  pose proof (land_byte_at_range data 8 127).
  pose proof (land_byte_at_range data 9 15).
  pose proof (land_byte_at_range data 10 31).
  pose proof (land_byte_at_range data 11 31).
  pose proof (land_byte_at_range data 12 63).
  pose proof (land_byte_at_range data 13 63).
  pose proof (land_byte_at_range data 17 127).
  pose proof (land_byte_at_range data 18 127).
  pose proof (land_byte_at_range data 19 127).
  change (Z.of_N 15) with 15%Z in *. change (Z.of_N 31) with 31%Z in *.
  change (Z.of_N 63) with 63%Z in *. change (Z.of_N 127) with 127%Z in *.
  repeat split; lia.
Qed.

Lemma parse_run (data : list byte) st :
  parse data st =
    if decide (measurement_packet data)
    then (inr (Some (extraction_table data)), st)
    else (inr None, {| measurements := measurements st; raw_data := raw_data st;
                       log_records := log_records st ++ [(WARNING, InvalidPacket)] |}).
Proof.
  case_decide as Hv.
  - destruct Hv. by apply parse_valid.
  - apply parse_invalid. unfold measurement_packet in Hv.
    destruct (decide (23 ≤ length data)); [right; naive_solver | left; lia].
Qed.

Lemma handle_notification_nonempty (data : list byte) st :
  data ≠ [] → (handle_notification data st).1 = inr ().
Proof.
  intros Hne.
  by destruct (handle_notification_handled data st)
    as [Hnil | Hlen H0 | Hlen H0 | b H0 Hb Hms Hlen | b H0 Hb Hskip].
Qed.

Lemma notifications_cons (data : list byte) stream st :
  data ≠ [] →
  notifications (data :: stream) st
    = notifications stream (handle_notification data st).2.
Proof.
  intros Hne. cbn [notifications]. unfold mbind, M_bind.
  pose proof (handle_notification_nonempty data st Hne) as Hok.
  by destruct (handle_notification data st) as [[e|[]] st'].
Qed.

(** ** The parser on any buffer *)

(** X1.  Whatever [parse] returns as a measurement has its packet number
    between 0 and 15, its year between 2000 and 2127, month 0 to 15, day
    and hour 0 to 31, minute and second 0 to 63, the three SpO2 values
    between 0 and 127, and no pulse rate. *)
Theorem parse_fields_in_range (data : list byte) (st : State) (m : Measurement) :
  (parse data st).1 = inr (Some m) →
  measurement_in_range m ∧ pr m = None.
Proof.
  rewrite parse_run. case_decide; cbn [fst]; [|done].
  intros [= <-]. split; [apply extraction_table_in_range|done].
Qed.

Lemma parse_fields_in_range_witness :
  measurement_in_range sample_record ∧ pr sample_record = None.
Proof.
  apply (parse_fields_in_range sample_packet initial sample_record).
  reflexivity.
Defined.

(** X2.  [parse] raises on no buffer, of any length and content.  On a
    buffer of 23 bytes or more that starts with the marker it returns the
    measurement and leaves the state as it was; on any other buffer it
    returns [None] and adds one warning to the log, and nothing else
    changes. *)
Theorem parse_never_raises (data : list byte) (st : State) :
  parse data st =
    if decide (23 ≤ length data ∧ data !! 0 = Some xe9)
    then (inr (Some (extraction_table data)), st)
    else (inr None, {| measurements := measurements st; raw_data := raw_data st;
                       log_records := log_records st ++ [(WARNING, InvalidPacket)] |}).
Proof. apply parse_run. Qed.

(** X3.  [extract_time] needs six bytes: on a shorter sequence it raises
    [IndexError], on six bytes or more it returns the six masked fields
    and reads nothing after the sixth byte.  It never changes the state. *)
Theorem extract_time_needs_six_bytes (data : list byte) (st : State) :
  extract_time data st =
    if decide (6 ≤ length data)
    then (inr {| year := 2000 + Z.land (byte_at data 0) 0x7F;
                 month := Z.land (byte_at data 1) 0x0F;
                 day := Z.land (byte_at data 2) 0x1F;
                 hour := Z.land (byte_at data 3) 0x1F;
                 minute := Z.land (byte_at data 4) 0x3F;
                 second := Z.land (byte_at data 5) 0x3F |}, st)
    else (inl IndexError, st).
Proof.
  case_decide as Hlen; [by apply extract_time_run|].
  destruct data as [|b0 [|b1 [|b2 [|b3 [|b4 [|b5 data]]]]]];
    try reflexivity.
  cbn [length] in Hlen. lia.
Qed.

(** X4.  The measurement that [parse] returns depends on ten bytes of the
    buffer only, those at offsets 1, 8 to 13 and 17 to 19: two accepted
    buffers that agree there give the same measurement, whatever their
    other bytes and their lengths. *)
Theorem parse_reads_ten_bytes (data1 data2 : list byte) (st : State) :
  measurement_packet data1 → measurement_packet data2 →
  Forall (λ i, data1 !! i = data2 !! i) [1; 8; 9; 10; 11; 12; 13; 17; 18; 19] →
  (parse data1 st).1 = (parse data2 st).1.
Proof.
  intros Hv1 Hv2 Hsame. rewrite !parse_run, !decide_True by done. cbn [fst].
  repeat (apply Forall_cons in Hsame as [? Hsame]).
  unfold extraction_table, byte_at. congruence.
Qed.

Lemma parse_reads_ten_bytes_witness :
  (parse sample_packet initial).1
    = (parse (<[21:=xff]> (<[3:=x7f]> sample_packet) ++ [xaa]) initial).1.
Proof.
  apply (parse_reads_ten_bytes sample_packet
           (<[21:=xff]> (<[3:=x7f]> sample_packet) ++ [xaa]) initial).
  - split; [simpl; lia | reflexivity].
  - split; [simpl; lia | reflexivity].
  - repeat constructor.
Defined.

(** ** One call of the callback: what is stored and logged *)

Lemma raw_data_after (data : list byte) st :
  raw_data (handle_notification data st).2 = raw_data st ++ [hex data].
Proof.
  by destruct (handle_notification_handled data st)
    as [-> | Hlen H0 | Hlen H0 | b H0 Hb Hms Hlen | b H0 Hb Hskip].
Qed.

Lemma not_marker_not_packet (data : list byte) b :
  data !! 0 = Some b → b ≠ xe9 → ¬ measurement_packet data.
Proof. intros H0 Hb [_ Hm]. congruence. Qed.

(** Apart from the pulse rates, one call adds the decoded record of an
    accepted packet and changes nothing else. *)
Lemma without_pr_after (data : list byte) st :
  without_pr <$> measurements (handle_notification data st).2 =
    (without_pr <$> measurements st) ++
    (if decide (measurement_packet data) then [extraction_table data] else []).
Proof.
  destruct (handle_notification_handled data st)
    as [-> | Hlen H0 | Hlen H0 | b H0 Hb Hms Hlen | b H0 Hb Hskip];
    cbn [snd measurements received].
  - rewrite decide_False by (intros [Hl _]; cbn in Hl; lia).
    by rewrite app_nil_r.
  - rewrite decide_True by done. by rewrite fmap_app.
  - rewrite decide_False by (intros [Hl _]; lia). by rewrite app_nil_r.
  - rewrite decide_False by eauto using not_marker_not_packet.
    rewrite app_nil_r, (list_fmap_alter _ _ id) by (by apply Forall_true).
    by apply list_alter_id.
  - rewrite decide_False by eauto using not_marker_not_packet.
    by rewrite app_nil_r.
Qed.

Lemma length_measurements_after (data : list byte) st :
  length (measurements (handle_notification data st).2) =
    length (measurements st) + (if decide (measurement_packet data) then 1 else 0).
Proof.
  pose proof (f_equal length (without_pr_after data st)) as Hlen.
  rewrite length_app, !length_fmap in Hlen. rewrite Hlen.
  by case_decide.
Qed.

(** X5.  Every call of the callback appends the hexadecimal text of its
    buffer to [raw_data], whether the buffer is accepted, rejected, ignored
    or empty; after a stream with no empty buffer, [raw_data] holds the
    text of every buffer of the stream, in order of arrival, after what it
    held before. *)
Theorem raw_data_records_every_buffer (data : list byte)
    (stream : list (list byte)) (st : State) :
  raw_data (handle_notification data st).2 = raw_data st ++ [hex data] ∧
  (Forall (λ d, d ≠ []) stream →
   raw_data (notifications stream st).2 = raw_data st ++ (hex <$> stream)).
Proof.
  split; [apply raw_data_after|].
  revert st. induction stream as [|d stream IH]; intros st Hne.
  - cbn. by rewrite app_nil_r.
  - apply Forall_cons in Hne as [Hd Hne].
    rewrite notifications_cons, IH, raw_data_after by done.
    by rewrite <- app_assoc.
Qed.

Lemma raw_data_records_every_buffer_witness :
  raw_data (notifications [sample_packet; [x50; x40]] initial).2
    = raw_data initial ++ (hex <$> [sample_packet; [x50; x40]]).
Proof.
  apply (proj2 (raw_data_records_every_buffer [] [sample_packet; [x50; x40]]
                  initial)).
  repeat constructor; discriminate.
Defined.

(** X6.  One call of the callback adds to the log the [Received] line of
    its buffer and at most one more record: the warning for an invalid
    packet when the buffer starts with the marker and is shorter than 23
    bytes, the pulse-rate line when the buffer starts with another byte,
    holds three bytes or more and a measurement is stored, and nothing
    otherwise.  Earlier records stay as they are. *)
Theorem log_records_after_call (data : list byte) (st : State) :
  log_records (handle_notification data st).2 =
    log_records st ++
    (DEBUG, Received (hex data)) :: logged_after_received data st.
Proof.
  unfold logged_after_received.
  destruct (handle_notification_handled data st)
    as [-> | Hlen H0 | Hlen H0 | b H0 Hb Hms Hlen | b H0 Hb Hskip];
    cbn [snd log_records received]; rewrite <- ?app_assoc; cbn [app].
  - done.
  - by rewrite H0, !decide_True.
  - rewrite H0, decide_True, decide_False by (done || lia). done.
  - rewrite H0, decide_False by done.
    by rewrite truthy_ne, bool_decide_eq_true_2.
  - rewrite H0, decide_False by done.
    destruct Hskip as [-> | Hlen]; [done|].
    by rewrite (bool_decide_eq_false_2 (3 ≤ length data)), andb_false_r by lia.
Qed.

(** X7.  A buffer that starts with the marker never changes a stored
    measurement, its pulse rate included, however long the buffer is: the
    list before the call is a prefix of the list after it.  So three bytes
    of pulse-rate data whose first byte is [0xE9] are not stored. *)
Theorem marker_buffer_keeps_measurements (data : list byte) (st : State) :
  data !! 0 = Some xe9 →
  measurements st `prefix_of` measurements (handle_notification data st).2.
Proof.
  intros H0. rewrite measurements_after, H0, decide_True by done.
  case_decide; [by apply prefix_app_r|done].
Qed.

Lemma marker_buffer_keeps_measurements_witness :
  [with_pr {| max := 80; min := 64; avg := 70 |} sample_record]
    `prefix_of`
  measurements
    (handle_notification [xe9; x40; x46]
       {| measurements :=
            [with_pr {| max := 80; min := 64; avg := 70 |} sample_record];
          raw_data := []; log_records := [] |}).2.
Proof.
  apply (marker_buffer_keeps_measurements [xe9; x40; x46]
           {| measurements :=
                [with_pr {| max := 80; min := 64; avg := 70 |} sample_record];
              raw_data := []; log_records := [] |}).
  reflexivity.
Defined.

(** X8.  Of two buffers that carry a pulse rate, the later one wins: when
    a buffer that does not start with the marker is followed by a buffer
    of three bytes or more that does not start with it either, the stored
    measurements are the same as if the first buffer had not arrived. *)
Theorem pulse_rate_last_write_wins (data1 data2 : list byte) (b2 : byte)
    (st : State) :
  data1 !! 0 ≠ Some xe9 →
  data2 !! 0 = Some b2 → b2 ≠ xe9 → 3 ≤ length data2 →
  measurements
    (handle_notification data2 (handle_notification data1 st).2).2
  = measurements (handle_notification data2 st).2.
Proof.
  intros H1 H2 Hb2 Hlen2.
  rewrite (measurements_after data2), H2, decide_False by done.
  rewrite (measurements_after data2 st), H2, decide_False by done.
  rewrite !(bool_decide_eq_true_2 (3 ≤ length data2)), !andb_true_r by done.
  rewrite (measurements_after data1).
  destruct (data1 !! 0) as [b1|] eqn:Hb1; [|done].
  rewrite decide_False by congruence.
  destruct (truthy (measurements st) && bool_decide (3 ≤ length data1)) eqn:Hgo;
    [|done].
  apply andb_true_iff in Hgo as [Htr _].
  rewrite length_alter, Htr.
  replace (truthy (alter _ _ (measurements st))) with true
    by (by destruct (measurements st) as [|? [|??]]).
  rewrite list_alter_alter_eq. by apply list_alter_ext.
Qed.

Lemma pulse_rate_last_write_wins_witness :
  measurements
    (handle_notification [x01; x02; x03]
       (handle_notification [x50; x40; x46]
          {| measurements := [sample_record]; raw_data := [];
             log_records := [] |}).2).2
  = measurements
      (handle_notification [x01; x02; x03]
         {| measurements := [sample_record]; raw_data := [];
            log_records := [] |}).2.
Proof.
  apply (pulse_rate_last_write_wins [x50; x40; x46] [x01; x02; x03] x01);
    [discriminate | reflexivity | discriminate | simpl; lia].
Defined.

(** ** Streams of notifications *)

Lemma notifications_ok (stream : list (list byte)) :
  ∀ st, Forall (λ d, d ≠ []) stream → (notifications stream st).1 = inr ().
Proof.
  induction stream as [|d stream IH]; intros st Hne; [done|].
  apply Forall_cons in Hne as [Hd Hne].
  rewrite notifications_cons by done. by apply IH.
Qed.

Lemma length_measurements_of_stream (stream : list (list byte)) :
  ∀ st, Forall (λ d, d ≠ []) stream →
    length (measurements (notifications stream st).2) =
      length (measurements st) + length (filter measurement_packet stream).
Proof.
  induction stream as [|d stream IH]; intros st Hne; [cbn; lia|].
  apply Forall_cons in Hne as [Hd Hne].
  rewrite notifications_cons, IH, length_measurements_after by done.
  rewrite filter_cons. case_decide; cbn [length]; lia.
Qed.

Lemma report_latest_result st :
  (report_latest st).1 =
    if bool_decide (2 ≤ length (measurements st)) then inl TypeError else inr ().
Proof.
  destruct st as [[|m1 [|m2 rest]] rd lg]; reflexivity.
Qed.

(** X9.  After a stream with no empty buffer, the stored measurements are,
    pulse rates apart, those stored before followed by the decoded records
    of the accepted packets of the stream, one for each, in order of
    arrival: no packet is dropped, merged or reordered, and no other
    buffer adds a record. *)
Theorem measurements_of_stream (stream : list (list byte)) (st : State) :
  Forall (λ d, d ≠ []) stream →
  without_pr <$> measurements (notifications stream st).2 =
    (without_pr <$> measurements st) ++
    (extraction_table <$> filter measurement_packet stream).
Proof.
  revert st. induction stream as [|d stream IH]; intros st Hne.
  - cbn. by rewrite app_nil_r.
  - apply Forall_cons in Hne as [Hd Hne].
    rewrite notifications_cons, IH, without_pr_after by done.
    rewrite filter_cons, <- app_assoc. by case_decide.
Qed.

Lemma measurements_of_stream_witness :
  without_pr <$>
    measurements
      (notifications [[x01; x02; x03]; sample_packet; [x50; x40; x46];
                      [xe9; x00]; sample_packet] initial).2 =
  (without_pr <$> measurements initial) ++
  (extraction_table <$>
     filter measurement_packet
       [[x01; x02; x03]; sample_packet; [x50; x40; x46];
        [xe9; x00]; sample_packet]).
Proof.
  apply (measurements_of_stream
           [[x01; x02; x03]; sample_packet; [x50; x40; x46];
            [xe9; x00]; sample_packet] initial).
  repeat constructor; discriminate.
Defined.



(** X11.  From any state, an accepted packet followed by a buffer of three
    bytes or more that does not start with the marker adds exactly one
    measurement: the decoded record of the packet, holding as pulse rate
    the first three bytes of the buffer, each masked to seven bits.  The
    measurements stored before are not changed. *)
Theorem packet_then_pulse_rate (data buf : list byte) (b : byte) (st : State) :
  measurement_packet data →
  buf !! 0 = Some b → b ≠ xe9 → 3 ≤ length buf →
  measurements (handle_notification buf (handle_notification data st).2).2 =
    measurements st ++ [with_pr (pulse_rate buf) (extraction_table data)].
Proof.
  intros [Hlen H0] Hb0 Hb Hlenb.
  rewrite (measurements_after buf), Hb0, decide_False by done.
  rewrite (measurements_after data), H0, !decide_True by done.
  rewrite bool_decide_eq_true_2, andb_true_r by done.
  replace (truthy (measurements st ++ [extraction_table data])) with true
    by (by destruct (measurements st)).
  rewrite length_app. cbn [length].
  replace (length (measurements st) + 1 - 1) with (length (measurements st) + 0)
    by lia.
  by rewrite alter_app_r.
Qed.

Lemma packet_then_pulse_rate_witness :
  measurements
    (handle_notification [xd0; xc0; xc6; x00]
       (handle_notification sample_packet
          {| measurements := [sample_record]; raw_data := [];
             log_records := [] |}).2).2 =
  [sample_record] ++
  [with_pr (pulse_rate [xd0; xc0; xc6; x00]) (extraction_table sample_packet)].
Proof.
  apply (packet_then_pulse_rate sample_packet [xd0; xc0; xc6; x00] xd0
           {| measurements := [sample_record]; raw_data := [];
              log_records := [] |});
    [split; [simpl; lia | reflexivity] | reflexivity | discriminate
    | simpl; lia].
Defined.

(** X12.  The order of arrival matters: a buffer that does not start with
    the marker and arrives while no measurement is stored is not kept for
    later.  The packet accepted after it is stored without a pulse
    rate. *)
Theorem pulse_rate_before_packet_is_lost (buf data : list byte) (st : State) :
  measurements st = [] →
  buf !! 0 ≠ Some xe9 →
  measurement_packet data →
  measurements (handle_notification data (handle_notification buf st).2).2 =
    [extraction_table data] ∧
  pr (extraction_table data) = None.
Proof.
  intros Hnil Hb [Hlen H0]. split; [|done].
  rewrite (measurements_after data), H0, !decide_True by done.
  rewrite (measurements_after buf), Hnil.
  destruct (buf !! 0) as [b|]; [|done].
  by rewrite decide_False by congruence.
Qed.

Lemma pulse_rate_before_packet_is_lost_witness :
  measurements
    (handle_notification sample_packet
       (handle_notification [x50; x40; x46] initial).2).2 =
    [extraction_table sample_packet] ∧
  pr (extraction_table sample_packet) = None.
Proof.
  apply (pulse_rate_before_packet_is_lost [x50; x40; x46] sample_packet initial);
    [reflexivity | discriminate | split; [simpl; lia | reflexivity]].
Defined.

(** X13.  The callback and the report together: after a stream with no
    empty buffer, received with nothing stored, the report at the end of
    [main] ends in [TypeError] exactly when the stream holds two accepted
    packets or more, and returns normally otherwise. *)
Theorem report_after_stream (stream : list (list byte)) :
  Forall (λ d, d ≠ []) stream →
  ((notifications stream;; report_latest) initial).1 =
    if bool_decide (2 ≤ length (filter measurement_packet stream))
    then inl TypeError else inr ().
Proof.
  intros Hne.
  pose proof (notifications_ok stream initial Hne) as Hok.
  pose proof (length_measurements_of_stream stream initial Hne) as Hlen.
  unfold mbind, M_bind.
  destruct (notifications stream initial) as [[e|[]] st']; cbn [fst snd] in *;
    [done|].
  rewrite report_latest_result, Hlen. done.
Qed.

Lemma report_after_stream_witness :
  ((notifications [sample_packet; [x50; x40; x46]; sample_packet];;
    report_latest) initial).1 = inl TypeError.
Proof.
  apply (report_after_stream [sample_packet; [x50; x40; x46]; sample_packet]).
  repeat constructor; discriminate.
Defined.
